(** * Upgrade assistant status: es_migration_apis.ts

    A shallow embedding of
    [x-pack/plugins/upgrade_assistant/server/lib/es_migration_apis.ts]
    and the properties of its three functions
    [getClusterDeprecations], [getCombinedIndexInfos] and
    [getUpgradeAssistantStatus]. *)

From stdpp Require Import base option list gmap strings.

(** ** JavaScript values used by the module *)

(** [s.startsWith(pat)] on strings, character by character. *)
Fixpoint starts_with (pat s : string) : bool :=
  match pat, s with
  | EmptyString, _ => true
  | String a pat', String b s' => bool_decide (a = b) && starts_with pat' s'
  | String _ _, EmptyString => false
  end.

(** [/pat/.test(s)] for a pattern without metacharacters: the pattern
    matches at some position of [s].  Both patterns of the module consist of
    letters and blanks only. *)
Fixpoint regex_test (pat s : string) : bool :=
  starts_with pat s ||
  match s with
  | EmptyString => false
  | String _ s' => regex_test pat s'
  end.

(** What "the message contains the substring" means. *)
Definition contains_substring (pat s : string) : Prop :=
  ∃ pre post : string, s = pre +:+ pat +:+ post.

(** A plain object used as a dictionary: its own enumerable string keys in
    the order [Object.keys] lists them, each with its value. *)
Definition js_object (V : Type) : Type := list (string * V).

Definition Object_keys {V} (o : js_object V) : list string := o.*1.

(** Property read [o[k]]. *)
Fixpoint js_get {V} (o : js_object V) (k : string) : option V :=
  match o with
  | [] => None
  | (k', v) :: o' => if decide (k' = k) then Some v else js_get o' k
  end.

(** An object has every key once. *)
Definition js_object_wf {V} (o : js_object V) : Prop := NoDup (Object_keys o).

(** The property key a value is converted to in [o[v]]: a string is its own
    key, [undefined] is the key ["undefined"]. *)
Definition to_property_key (v : option string) : string :=
  match v with
  | Some s => s
  | None => "undefined"
  end.

(** ** The module *)

Section Model.

(** The fields of a deprecation warning besides [level] and [message]
    (its source-specific context), and the values promises reject with. *)
Context {Ctx Err : Type}.

(** [DeprecationInfo]: a warning as the deprecation API returns it. *)
Record DeprecationInfo : Type := mkDeprecationInfo {
  level : string;
  message : string;
  context : Ctx
}.

(** [EnrichedDeprecationInfo extends DeprecationInfo]: the optional fields
    are [None] when the property is absent (reads as [undefined]). *)
Record EnrichedDeprecationInfo : Type := mkEnriched {
  base :> DeprecationInfo;
  index : option string;
  reindex : option bool;
  needsDefaultFields : option bool;
  blockerForReindexing : option string
}.

(** A [DeprecationInfo] object seen at type [EnrichedDeprecationInfo]:
    none of the optional properties is present. *)
Definition upcast (d : DeprecationInfo) : EnrichedDeprecationInfo :=
  {| base := d; index := None; reindex := None;
     needsDefaultFields := None; blockerForReindexing := None |}.

(** [DeprecationAPIResponse] *)
Record DeprecationAPIResponse : Type := mkResponse {
  cluster_settings : list DeprecationInfo;
  ml_settings : list DeprecationInfo;
  node_settings : list DeprecationInfo;
  index_settings : js_object (list DeprecationInfo)
}.

(** [UpgradeAssistantStatus] *)
Record UpgradeAssistantStatus : Type := mkStatus {
  readyForUpgrade : bool;
  cluster : list EnrichedDeprecationInfo;
  indices : list EnrichedDeprecationInfo
}.

(** *** getClusterDeprecations *)

Definition getClusterDeprecations
    (deprecations : DeprecationAPIResponse) (isCloudEnabled : bool)
    : list DeprecationInfo :=
  let combined :=
    (cluster_settings deprecations ++ ml_settings deprecations)
      ++ node_settings deprecations in
  if isCloudEnabled then
    filter (λ d, message d ≠ "Security realm settings structure changed")
           combined
  else combined.

(** *** getCombinedIndexInfos *)

(** [./reindexing], imported by the module. *)
Variable isSystemIndex : string → bool.

(** [apmIndexDeprecations.reduce((acc, dep) => acc.add(dep.index), new Set())] *)
Definition apmIndexSet (apmIndexDeprecations : list EnrichedDeprecationInfo)
    : gset (option string) :=
  foldl (λ acc dep, acc ∪ {[ index dep ]}) ∅ apmIndexDeprecations.

(** The object literal built for warning [d] of index [indexName]. *)
Definition enrich (apmIndices : gset (option string)) (indexName : string)
    (d : DeprecationInfo) : EnrichedDeprecationInfo :=
  {| base := d;
     index := Some indexName;
     reindex := Some (regex_test "Index created before" (message d)
                      && negb (bool_decide (Some indexName ∈ apmIndices)));
     needsDefaultFields :=
       Some (regex_test
               "Number of fields exceeds automatic field expansion limit"
               (message d));
     blockerForReindexing := None |}.

(** [isSystemIndex(deprecation.index!)].  The filter only ever sees
    entries built by [enrich], whose [index] is present (lemma
    [reduceIndexInfos_index] below). *)
Definition isSystemIndexEntry (deprecation : EnrichedDeprecationInfo) : bool :=
  match index deprecation with
  | Some i => isSystemIndex i
  | None => false
  end.

(** [deprecations.index_settings[indexName].map(...)]; [indexName] is one
    of the object's own keys (lemma [js_get_own_key] below). *)
Definition indexInfos (deprecations : DeprecationAPIResponse)
    (apmIndices : gset (option string)) (indexName : string)
    : list EnrichedDeprecationInfo :=
  match js_get (index_settings deprecations) indexName with
  | Some ds => enrich apmIndices indexName <$> ds
  | None => []
  end.

(** The [Object.keys(...).filter(...).reduce(...)] part of the chain. *)
Definition reduceIndexInfos (deprecations : DeprecationAPIResponse)
    (apmIndices : gset (option string)) : list EnrichedDeprecationInfo :=
  foldl (λ indexDeprecations indexName,
           indexDeprecations ++ indexInfos deprecations apmIndices indexName)
        []
        (filter (λ indexName, Some indexName ∉ apmIndices)
                (Object_keys (index_settings deprecations))).

(** The chain up to the system-index filter: the general (non-apm)
    portion of the merged list. *)
Definition generalIndexInfos (deprecations : DeprecationAPIResponse)
    (apmIndexDeprecations : list EnrichedDeprecationInfo)
    : list EnrichedDeprecationInfo :=
  let apmIndices := apmIndexSet apmIndexDeprecations in
  filter (λ deprecation, ¬ isSystemIndexEntry deprecation)
         (reduceIndexInfos deprecations apmIndices).

Definition getCombinedIndexInfos (deprecations : DeprecationAPIResponse)
    (apmIndexDeprecations : list EnrichedDeprecationInfo)
    : list EnrichedDeprecationInfo :=
  generalIndexInfos deprecations apmIndexDeprecations
    ++ apmIndexDeprecations.

(** *** The merged index list as the specification words it

    An index is an apm index when some apm warning names it; every warning
    of every other key is enriched, in key order and warning order; entries
    of system indices are removed; the apm warnings follow. *)

Definition enrich_spec (indexName : string) (d : DeprecationInfo)
    : EnrichedDeprecationInfo :=
  {| base := d;
     index := Some indexName;
     reindex := Some (regex_test "Index created before" (message d));
     needsDefaultFields :=
       Some (regex_test
               "Number of fields exceeds automatic field expansion limit"
               (message d));
     blockerForReindexing := None |}.

Definition nonApmKeys_spec (deprecations : DeprecationAPIResponse)
    (apmIndexDeprecations : list EnrichedDeprecationInfo) : list string :=
  filter (λ indexName, Some indexName ∉ index <$> apmIndexDeprecations)
         (Object_keys (index_settings deprecations)).

Definition mergedIndexList_spec (deprecations : DeprecationAPIResponse)
    (apmIndexDeprecations : list EnrichedDeprecationInfo)
    : list EnrichedDeprecationInfo :=
  filter (λ e, ¬ isSystemIndexEntry e)
    (nonApmKeys_spec deprecations apmIndexDeprecations ≫= λ indexName,
       enrich_spec indexName
         <$> default [] (js_get (index_settings deprecations) indexName))
  ++ apmIndexDeprecations.

(** *** Promises and collaborators *)

(** How a promise settles. *)
Inductive outcome (A : Type) : Type :=
| Resolved (a : A)
| Rejected (e : Err).
Global Arguments Resolved {A} a.
Global Arguments Rejected {A} e.

(** The second argument of [callAsCurrentUser]. *)
Record RequestParams : Type := mkParams {
  path : string;
  method : string
}.

(** [IScopedClusterClient], as far as the module uses it. *)
Record IScopedClusterClient : Type := mkClient {
  callAsCurrentUser :
    string → RequestParams → outcome DeprecationAPIResponse
}.

(** What [esIndicesStateCheck] resolves to: index name to state. *)
Definition IndexStates : Type := gmap string string.

(** A call the module makes to a collaborator. *)
Inductive Call : Type :=
| CallAsCurrentUser (endpoint : string) (params : RequestParams)
| CallGetDeprecatedApmIndices (apmIndices : list string)
| CallEsIndicesStateCheck (indexNames : list (option string)).

(** An asynchronous computation: the collaborator calls it makes, in
    order, and how it settles. *)
Definition Async (A : Type) : Type := list Call * outcome A.

(** The arguments of the index-state probe calls in a call log. *)
Fixpoint probeCalls (log : list Call) : list (list (option string)) :=
  match log with
  | [] => []
  | CallEsIndicesStateCheck indexNames :: log' => indexNames :: probeCalls log'
  | _ :: log' => probeCalls log'
  end.

Definition calls {A} (m : Async A) : list Call := m.1.
Definition settled {A} (m : Async A) : outcome A := m.2.

Definition async_ret {A} (a : A) : Async A := ([], Resolved a).

(** [await m] followed by [k]: a rejection of [m] is thrown at the await
    and, there being no [try], ends the function with the same reason. *)
Definition async_bind {A B} (k : A → Async B) (m : Async A) : Async B :=
  match settled m with
  | Resolved a => (calls m ++ calls (k a), settled (k a))
  | Rejected e => (calls m, Rejected e)
  end.

Global Instance async_mret : MRet Async := @async_ret.
Global Instance async_mbind : MBind Async := @async_bind.

(** Calling a collaborator that settles as [r]. *)
Definition invoke {A} (c : Call) (r : outcome A) : Async A := ([c], r).

(** Which of two rejected promises rejects first. *)
Inductive Race : Type := LeftFirst | RightFirst.

(** [Promise.all([p, q])]: both operations have been started; the result
    resolves to the pair when both resolve and rejects with the reason of
    the promise that rejects first. *)
Definition Promise_all {A B} (race : Race) (p : Async A) (q : Async B)
    : Async (A * B) :=
  (calls p ++ calls q,
   match settled p, settled q with
   | Resolved a, Resolved b => Resolved (a, b)
   | Rejected e, Resolved _ => Rejected e
   | Resolved _, Rejected e => Rejected e
   | Rejected e1, Rejected e2 =>
       match race with
       | LeftFirst => Rejected e1
       | RightFirst => Rejected e2
       end
   end).

(** [./apm] and [./es_indices_state_check], imported by the module, and
    the order in which the two fetches settle. *)
Variable getDeprecatedApmIndices :
  IScopedClusterClient → list string → outcome (list EnrichedDeprecationInfo).
Variable esIndicesStateCheck :
  (string → RequestParams → outcome DeprecationAPIResponse) →
  list (option string) → outcome IndexStates.
Variable race : Race.

(** *** getUpgradeAssistantStatus *)

(** The assignment in the body of [indices.forEach]. *)
Definition setBlocker (indexStates : IndexStates)
    (indexData : EnrichedDeprecationInfo) : EnrichedDeprecationInfo :=
  {| base := base indexData;
     index := index indexData;
     reindex := reindex indexData;
     needsDefaultFields := needsDefaultFields indexData;
     blockerForReindexing :=
       if decide (indexStates !! to_property_key (index indexData)
                  = Some "close")
       then Some "index-closed" else None |}.

(** The state-enrichment pass, [indices.forEach(...)].  The source assigns
    in place; the value assigned depends on the entry's own [index] only,
    which the pass leaves alone, so an object listed more than once ends
    with the same fields as here. *)
Definition enrichIndexStates (indexStates : IndexStates)
    (indices : list EnrichedDeprecationInfo) : list EnrichedDeprecationInfo :=
  setBlocker indexStates <$> indices.

Definition getUpgradeAssistantStatus (dataClient : IScopedClusterClient)
    (isCloudEnabled : bool) (apmIndices : list string)
    : Async UpgradeAssistantStatus :=
  let request :=
    {| path := "/_migration/deprecations"; method := "GET" |} in
  '(deprecations, apmIndexDeprecations) ←
    Promise_all race
      (invoke (CallAsCurrentUser "transport.request" request)
              (callAsCurrentUser dataClient "transport.request" request))
      (invoke (CallGetDeprecatedApmIndices apmIndices)
              (getDeprecatedApmIndices dataClient apmIndices));
  let cluster :=
    upcast <$> getClusterDeprecations deprecations isCloudEnabled in
  let indices := getCombinedIndexInfos deprecations apmIndexDeprecations in
  let indexNames := index <$> indices in
  indices ←
    (if decide (length indexNames ≠ 0) then
       indexStates ←
         invoke (CallEsIndicesStateCheck indexNames)
                (esIndicesStateCheck (callAsCurrentUser dataClient)
                                     indexNames);
       mret (enrichIndexStates indexStates indices)
     else mret indices);
  let criticalWarnings :=
    filter (λ d : EnrichedDeprecationInfo, level d = "critical")
           (cluster ++ indices) in
  mret {| readyForUpgrade := bool_decide (length criticalWarnings = 0);
          cluster := cluster;
          indices := indices |}.

End Model.

(** ** Sample deployments

    Concrete inputs on which the functions are evaluated below.  Warnings
    carry no context ([unit]) and promises reject with a string. *)

Definition warn (lvl msg : string) : @DeprecationInfo unit :=
  {| level := lvl; message := msg; context := () |}.

(** The system-index predicate of the examples: names that start with a dot. *)
Definition dotIndex (indexName : string) : bool := starts_with "." indexName.

(** [index_settings = {"idx1": [{level: "warning", message: "Index created
    before 7.0"}]}] and nothing else. *)
Definition response_idx1 : @DeprecationAPIResponse unit :=
  {| cluster_settings := []; ml_settings := []; node_settings := [];
     index_settings := [("idx1", [warn "warning" "Index created before 7.0"])] |}.

(** A client whose transport request resolves to [r]. *)
Definition clientOf (r : @outcome string (@DeprecationAPIResponse unit))
    : @IScopedClusterClient unit string :=
  {| callAsCurrentUser := λ _ _, r |}.

(** An apm lookup that finds nothing, one that finds [l], one that fails. *)
Definition apmOf (l : list (@EnrichedDeprecationInfo unit))
    : @IScopedClusterClient unit string → list string →
      @outcome string (list (@EnrichedDeprecationInfo unit)) :=
  λ _ _, Resolved l.

Definition apmFails (e : string)
    : @IScopedClusterClient unit string → list string →
      @outcome string (list (@EnrichedDeprecationInfo unit)) :=
  λ _ _, Rejected e.

(** A probe that reports the states [st] whatever it is asked, and one that
    fails. *)
Definition probeOf (st : IndexStates)
    : (string → RequestParams → @outcome string (@DeprecationAPIResponse unit)) →
      list (option string) → @outcome string IndexStates :=
  λ _ _, Resolved st.

Definition probeFails (e : string)
    : (string → RequestParams → @outcome string (@DeprecationAPIResponse unit)) →
      list (option string) → @outcome string IndexStates :=
  λ _ _, Rejected e.

(** [idx1] has two warnings. *)
Definition response_two : @DeprecationAPIResponse unit :=
  {| cluster_settings := []; ml_settings := []; node_settings := [];
     index_settings :=
       [("idx1", [warn "warning" "Index created before 7.0";
                  warn "critical" "Number of fields exceeds automatic field expansion limit"])] |}.

(** The response lists an apm index, then a system index, then [idx1];
    the cluster settings carry the security-realm warning. *)
Definition response_apm : @DeprecationAPIResponse unit :=
  {| cluster_settings :=
       [warn "warning" "Security realm settings structure changed"];
     ml_settings := [];
     node_settings := [warn "critical" "Node setting removed"];
     index_settings :=
       [("apm-1", [warn "warning" "Index created before 7.0"]);
        (".kibana", [warn "warning" "Index created before 7.0"]);
        ("idx1", [warn "warning" "Index created before 7.0"])] |}.

(** What the apm lookup reports for [apm-1]: flagged for reindexing
    whatever the message says, and carrying a blocker already. *)
Definition apm_warning : @EnrichedDeprecationInfo unit :=
  {| base := warn "warning" "APM index requires conversion to 7.x ECS format";
     index := Some "apm-1";
     reindex := Some true;
     needsDefaultFields := None;
     blockerForReindexing := Some "index-closed" |}.

(** [idx1] alone, reported closed. *)
Definition run_idx1_closed : @Async string (@UpgradeAssistantStatus unit) :=
  getUpgradeAssistantStatus dotIndex (apmOf []) (probeOf {[ "idx1" := "close" ]})
    LeftFirst (clientOf (Resolved response_idx1)) false [].

(** [idx1] with its two warnings; the probe reports nothing. *)
Definition run_two : @Async string (@UpgradeAssistantStatus unit) :=
  getUpgradeAssistantStatus dotIndex (apmOf []) (probeOf ∅)
    LeftFirst (clientOf (Resolved response_two)) false [].

(** The apm deployment on cloud; the probe reports [idx1] closed and has
    nothing on [apm-1]. *)
Definition run_apm : @Async string (@UpgradeAssistantStatus unit) :=
  getUpgradeAssistantStatus dotIndex (apmOf [apm_warning])
    (probeOf {[ "idx1" := "close" ]})
    LeftFirst (clientOf (Resolved response_apm)) true ["apm-*"].

(** The probe fails. *)
Definition run_probe_fails : @Async string (@UpgradeAssistantStatus unit) :=
  getUpgradeAssistantStatus dotIndex (apmOf []) (probeFails "probe failed")
    LeftFirst (clientOf (Resolved response_idx1)) false [].

(** Both fetches fail, the apm lookup first. *)
Definition run_fetches_fail : @Async string (@UpgradeAssistantStatus unit) :=
  getUpgradeAssistantStatus dotIndex (apmFails "apm failed")
    (probeOf ∅) RightFirst (clientOf (Rejected "fetch failed")) false [].

(** A response whose only indices are an apm index and a system index. *)
Definition response_internal : @DeprecationAPIResponse unit :=
  {| cluster_settings := []; ml_settings := []; node_settings := [];
     index_settings :=
       [("apm-1", [warn "critical" "Index created before 7.0"]);
        (".kibana", [warn "critical" "Index created before 7.0"])] |}.

(** A critical finding of the apm lookup, on a system index. *)
Definition apm_critical_warning : @EnrichedDeprecationInfo unit :=
  {| base := warn "critical" "APM index requires conversion to 7.x ECS format";
     index := Some ".apm-agent";
     reindex := Some true;
     needsDefaultFields := None;
     blockerForReindexing := None |}.

(** The deployment of [response_idx1] with that apm finding. *)
Definition run_apm_critical : @Async string (@UpgradeAssistantStatus unit) :=
  getUpgradeAssistantStatus dotIndex (apmOf [apm_critical_warning])
    (probeOf ∅) LeftFirst (clientOf (Resolved response_idx1)) false [].

(** ** Properties *)

Section Strings.

Lemma starts_with_spec (pat s : string) :
  starts_with pat s = true ↔ ∃ post, s = pat +:+ post.
Proof.
  revert s. induction pat as [|a pat IH]; intros s; simpl.
  - split; [intros _; by exists s | done].
  - destruct s as [|b s].
    + split; [done | by intros [post ?]].
    + rewrite andb_true_iff, bool_decide_eq_true, IH. split.
      * intros [-> [post ->]]. by exists post.
      * intros [post [= -> ->]]. split; [done | by exists post].
Qed.

Lemma regex_test_here (pat s : string) :
  starts_with pat s = true → regex_test pat s = true.
Proof. intros H. destruct s; simpl; by rewrite H. Qed.

Lemma regex_test_complete (pat pre post : string) :
  regex_test pat (pre +:+ pat +:+ post) = true.
Proof.
  induction pre as [|c pre IH]; simpl.
  - apply regex_test_here, starts_with_spec. by exists post.
  - rewrite IH. apply orb_true_r.
Qed.

Lemma regex_test_sound (pat s : string) :
  regex_test pat s = true → contains_substring pat s.
Proof.
  induction s as [|c s IH]; simpl.
  - rewrite orb_false_r. intros [post ->]%starts_with_spec.
    by exists EmptyString, post.
  - intros [[post Hs]%starts_with_spec | Hs]%orb_true_iff.
    + exists EmptyString, post. by rewrite Hs.
    + destruct (IH Hs) as (pre & post & ->). by exists (String c pre), post.
Qed.

(** [/pat/.test(s)] holds exactly when [s] contains [pat]. *)
Lemma regex_test_spec (pat s : string) :
  regex_test pat s = true ↔ contains_substring pat s.
Proof.
  split; [apply regex_test_sound |].
  intros (pre & post & ->). apply regex_test_complete.
Qed.

End Strings.

Section Objects.

Context {V : Type}.
Implicit Types (o : js_object V) (k : string).

(** Reading one of the object's own keys never comes back empty. *)
Lemma js_get_own_key o k : k ∈ Object_keys o → is_Some (js_get o k).
Proof.
  unfold Object_keys. induction o as [|[k' v] o IH]; simpl.
  - by intros ?%elem_of_nil.
  - intros Hk. case_decide; [by eexists |].
    apply IH. apply elem_of_cons in Hk as [?|?]; [congruence | done].
Qed.

(** In an object, reading a key gives the value listed with it. *)
Lemma js_get_entry o k v : js_object_wf o → (k, v) ∈ o → js_get o k = Some v.
Proof.
  unfold js_object_wf, Object_keys. induction o as [|[k' v'] o IH]; simpl.
  - by intros _ ?%elem_of_nil.
  - intros [Hk' Hnd]%NoDup_cons [[= -> ->]|Hin]%elem_of_cons.
    + by rewrite decide_True.
    + rewrite decide_False; [by apply IH |].
      intros ->. apply Hk'. apply list_elem_of_fmap. by exists (k, v).
Qed.

End Objects.

Section ClusterFilter.

Context {Ctx : Type}.
Implicit Types (deprecations : @DeprecationAPIResponse Ctx).

(** C2.  Without the cloud flag [getClusterDeprecations] returns the
    cluster-settings, ml-settings and node-settings lists concatenated in
    that order.  With the cloud flag it returns that concatenation with
    exactly the warnings removed whose message equals "Security realm
    settings structure changed": what stays keeps its order, and a warning
    of the concatenation is in the result if and only if its message is a
    different one. *)
Theorem getClusterDeprecations_spec deprecations :
  let combined :=
    cluster_settings deprecations ++ ml_settings deprecations
      ++ node_settings deprecations in
  getClusterDeprecations deprecations false = combined
  ∧ getClusterDeprecations deprecations true
    = filter (λ d, message d ≠ "Security realm settings structure changed")
             combined
  ∧ getClusterDeprecations deprecations true `sublist_of` combined
  ∧ ∀ d, d ∈ getClusterDeprecations deprecations true
         ↔ d ∈ combined
           ∧ message d ≠ "Security realm settings structure changed".
Proof.
  unfold getClusterDeprecations. simpl. rewrite <- (assoc_L (++)).
  split_and!; [done | done | apply sublist_filter |].
  intros d. by rewrite list_elem_of_filter, (comm and).
Qed.

End ClusterFilter.

Section IndexMerger.

Context {Ctx : Type}.
Variable isSystemIndex : string → bool.
Implicit Types (deprecations : @DeprecationAPIResponse Ctx).
Implicit Types (apm : list (@EnrichedDeprecationInfo Ctx)).
Implicit Types (e : @EnrichedDeprecationInfo Ctx) (w : @DeprecationInfo Ctx).
Implicit Types (apmIndices : gset (option string)).

Lemma foldl_add_index apm apmIndices (i : option string) :
  i ∈ foldl (λ acc dep, acc ∪ {[ index dep ]}) apmIndices apm
  ↔ i ∈ apmIndices ∨ i ∈ index <$> apm.
Proof.
  revert apmIndices. induction apm as [|a apm IH]; intros apmIndices; simpl.
  - rewrite elem_of_nil. tauto.
  - rewrite IH, elem_of_union, elem_of_singleton, elem_of_cons. tauto.
Qed.

(** The set holds exactly the [index] values of the apm warnings. *)
Lemma elem_of_apmIndexSet apm (i : option string) :
  i ∈ apmIndexSet apm ↔ i ∈ index <$> apm.
Proof.
  unfold apmIndexSet. rewrite foldl_add_index, elem_of_empty. tauto.
Qed.

(** A [reduce] that concatenates is a flattening map. *)
Lemma foldl_concat {A B} (f : A → list B) (init : list B) (ks : list A) :
  foldl (λ acc k, acc ++ f k) init ks = init ++ (ks ≫= f).
Proof.
  revert init. induction ks as [|k ks IH]; intros init.
  - simpl. by rewrite (right_id_L [] (++)).
  - rewrite bind_cons. simpl. by rewrite IH, <- (assoc_L (++)).
Qed.

Lemma bind_ext_Forall {A B} (f g : A → list B) (ks : list A) :
  Forall (λ k, f k = g k) ks → ks ≫= f = ks ≫= g.
Proof.
  induction 1 as [|k ks Hk _ IH]; [done |]. by rewrite !bind_cons, Hk, IH.
Qed.

Lemma reduceIndexInfos_bind deprecations apmIndices :
  reduceIndexInfos deprecations apmIndices
  = filter (λ indexName, Some indexName ∉ apmIndices)
           (Object_keys (index_settings deprecations))
    ≫= indexInfos deprecations apmIndices.
Proof. unfold reduceIndexInfos. by rewrite foldl_concat. Qed.

(** For an index outside the apm set, the second conjunct of [reindex]
    is true and the object built is the one the specification describes. *)
Lemma enrich_non_apm apmIndices (indexName : string) w :
  Some indexName ∉ apmIndices →
  enrich apmIndices indexName w = enrich_spec indexName w.
Proof.
  intros Hk. unfold enrich, enrich_spec.
  by rewrite (bool_decide_eq_false_2 _ Hk), andb_true_r.
Qed.

(** Where an entry of the reduced list comes from. *)
Lemma elem_of_reduceIndexInfos deprecations apmIndices e :
  e ∈ reduceIndexInfos deprecations apmIndices ↔
  ∃ indexName ds w,
    indexName ∈ Object_keys (index_settings deprecations)
    ∧ (Some indexName ∉ apmIndices)
    ∧ js_get (index_settings deprecations) indexName = Some ds
    ∧ w ∈ ds
    ∧ e = enrich_spec indexName w.
Proof.
  rewrite reduceIndexInfos_bind, list_elem_of_bind. split.
  - intros (k & He & [Hapm Hk]%list_elem_of_filter).
    unfold indexInfos in He.
    destruct (js_get _ k) as [ds|] eqn:Hget; [|by apply elem_of_nil in He].
    apply list_elem_of_fmap in He as (w & -> & Hw).
    exists k, ds, w. by rewrite enrich_non_apm.
  - intros (k & ds & w & Hk & Hapm & Hget & Hw & ->). exists k. split.
    + unfold indexInfos. rewrite Hget. apply list_elem_of_fmap.
      exists w. by rewrite enrich_non_apm.
    + by apply list_elem_of_filter.
Qed.

(** Every entry the system-index filter sees has its [index]. *)
Lemma reduceIndexInfos_index deprecations apmIndices e :
  e ∈ reduceIndexInfos deprecations apmIndices → is_Some (index e).
Proof.
  intros (k & ds & w & _ & _ & _ & _ & ->)%elem_of_reduceIndexInfos.
  by eexists.
Qed.

(** Where an entry of the general portion comes from. *)
Lemma elem_of_generalIndexInfos deprecations apm e :
  e ∈ generalIndexInfos isSystemIndex deprecations apm ↔
  ∃ indexName ds w,
    indexName ∈ Object_keys (index_settings deprecations)
    ∧ (Some indexName ∉ index <$> apm)
    ∧ isSystemIndex indexName = false
    ∧ js_get (index_settings deprecations) indexName = Some ds
    ∧ w ∈ ds
    ∧ e = enrich_spec indexName w.
Proof.
  unfold generalIndexInfos.
  rewrite list_elem_of_filter, elem_of_reduceIndexInfos. split.
  - intros (Hsys & k & ds & w & Hk & Hapm & Hget & Hw & ->).
    exists k, ds, w. rewrite elem_of_apmIndexSet in Hapm.
    unfold isSystemIndexEntry in Hsys. simpl in Hsys.
    split_and!; try done.
    destruct (isSystemIndex k); [exfalso; by apply Hsys | done].
  - intros (k & ds & w & Hk & Hapm & Hsys & Hget & Hw & ->). split.
    + unfold isSystemIndexEntry. simpl. rewrite Hsys. intros H. exact H.
    + exists k, ds, w. by rewrite elem_of_apmIndexSet.
Qed.

(** C3.  An index name that is a key of [index_settings] and the index of
    some apm warning has no entry in the general portion of the merged
    list, the part [getCombinedIndexInfos] puts before the apm warnings.
    The exclusion goes by index name: two apm lists that name the same
    indices leave the same general portion. *)
Theorem apm_index_not_in_general_portion deprecations apm (indexName : string) :
  indexName ∈ Object_keys (index_settings deprecations) →
  Some indexName ∈ index <$> apm →
  getCombinedIndexInfos isSystemIndex deprecations apm
    = generalIndexInfos isSystemIndex deprecations apm ++ apm
  ∧ (∀ e, e ∈ generalIndexInfos isSystemIndex deprecations apm →
          index e ≠ Some indexName)
  ∧ (∀ apm', (∀ i : option string, i ∈ index <$> apm' ↔ i ∈ index <$> apm) →
             generalIndexInfos isSystemIndex deprecations apm'
             = generalIndexInfos isSystemIndex deprecations apm).
Proof.
  intros _ Hapm. split_and!; [done | |].
  - intros e (k & ds & w & _ & Hk & _ & _ & _ & ->)%elem_of_generalIndexInfos.
    simpl. by intros [= ->].
  - intros apm' Hsame. unfold generalIndexInfos.
    replace (apmIndexSet apm') with (apmIndexSet apm); [done |].
    apply set_eq. intros i. by rewrite !elem_of_apmIndexSet.
Qed.

(** C4, as amended.  In the general portion of the merged list every entry
    has both flags set, [reindex] is true exactly when the message contains
    "Index created before" and [needsDefaultFields] is true exactly when it
    contains "Number of fields exceeds automatic field expansion limit".
    The apm warnings that follow the general portion are the lookup's own
    objects, flags included. *)
Theorem general_portion_flags deprecations apm :
  let general := generalIndexInfos isSystemIndex deprecations apm in
  Forall (λ e,
      (reindex e = Some true
       ↔ contains_substring "Index created before" (message e))
      ∧ (needsDefaultFields e = Some true
         ↔ contains_substring
             "Number of fields exceeds automatic field expansion limit"
             (message e))
      ∧ is_Some (reindex e) ∧ is_Some (needsDefaultFields e))
    general
  ∧ drop (length general)
         (getCombinedIndexInfos isSystemIndex deprecations apm) = apm.
Proof.
  intros general. split; [| apply drop_app_length].
  apply Forall_forall.
  intros e (k & ds & w & _ & _ & _ & _ & _ & ->)%elem_of_generalIndexInfos.
  simpl. rewrite <- !regex_test_spec. split_and!; [| | by eexists..].
  - split; [by intros [= ->] | by intros ->].
  - split; [by intros [= ->] | by intros ->].
Qed.

(** C5.  The list [getCombinedIndexInfos] computes is the list the
    specification describes: over the keys of [index_settings] that no apm
    warning names, in key order, the enriched warnings of each key in their
    order, without the entries of system indices, followed by all apm
    warnings, unfiltered. *)
Theorem getCombinedIndexInfos_refines_spec deprecations apm :
  getCombinedIndexInfos isSystemIndex deprecations apm
  = mergedIndexList_spec isSystemIndex deprecations apm.
Proof.
  unfold getCombinedIndexInfos, mergedIndexList_spec, generalIndexInfos.
  f_equal. f_equal. rewrite reduceIndexInfos_bind. unfold nonApmKeys_spec.
  rewrite (list_filter_iff _
             (λ indexName, Some indexName ∉ index <$> apm)).
  - apply bind_ext_Forall, Forall_forall.
    intros k [Hk _]%list_elem_of_filter. unfold indexInfos.
    destruct (js_get _ k) as [ds|]; [|done]. simpl.
    apply list_fmap_ext. intros _ w _. apply enrich_non_apm.
    by rewrite elem_of_apmIndexSet.
  - intros k. by rewrite elem_of_apmIndexSet.
Qed.

End IndexMerger.

Section Orchestrator.

Context {Ctx Err : Type}.
Variable isSystemIndex : string → bool.
Variable getDeprecatedApmIndices :
  @IScopedClusterClient Ctx Err → list string →
  @outcome Err (list (@EnrichedDeprecationInfo Ctx)).
Variable esIndicesStateCheck :
  (string → RequestParams → @outcome Err (@DeprecationAPIResponse Ctx)) →
  list (option string) → @outcome Err IndexStates.
Variable race : Race.

Implicit Types (dataClient : @IScopedClusterClient Ctx Err).
Implicit Types (deprecations : @DeprecationAPIResponse Ctx).
Implicit Types (apm merged : list (@EnrichedDeprecationInfo Ctx)).
Implicit Types (e : @EnrichedDeprecationInfo Ctx) (err : Err).
Implicit Types (indexStates : IndexStates).
Implicit Types (status : @UpgradeAssistantStatus Ctx).

Local Abbreviation run :=
  (getUpgradeAssistantStatus isSystemIndex getDeprecatedApmIndices
                             esIndicesStateCheck race).
Local Abbreviation request :=
  {| path := "/_migration/deprecations"; method := "GET" |}.
Local Abbreviation fetch dataClient :=
  (callAsCurrentUser dataClient "transport.request" request).
Local Abbreviation fetchCall := (CallAsCurrentUser "transport.request" request).
Local Abbreviation statusOf cl ix :=
  {| readyForUpgrade :=
       bool_decide
         (length (filter (λ d : EnrichedDeprecationInfo, level d = "critical")
                         (cl ++ ix)) = 0);
     cluster := cl;
     indices := ix |}.

(** The whole run, by how the collaborators settle. *)
Lemma run_unfold dataClient (isCloudEnabled : bool) (apmIndices : list string) :
  run dataClient isCloudEnabled apmIndices =
  match fetch dataClient, getDeprecatedApmIndices dataClient apmIndices with
  | Resolved deprecations, Resolved apm =>
      let cl := upcast <$> getClusterDeprecations deprecations isCloudEnabled in
      let merged := getCombinedIndexInfos isSystemIndex deprecations apm in
      if decide (merged = []) then
        ([fetchCall; CallGetDeprecatedApmIndices apmIndices],
         Resolved (statusOf cl merged))
      else
        ([fetchCall; CallGetDeprecatedApmIndices apmIndices;
          CallEsIndicesStateCheck (index <$> merged)],
         match esIndicesStateCheck (callAsCurrentUser dataClient)
                                   (index <$> merged) with
         | Resolved indexStates =>
             Resolved (statusOf cl (enrichIndexStates indexStates merged))
         | Rejected err => Rejected err
         end)
  | Rejected err, Resolved _ | Resolved _, Rejected err =>
      ([fetchCall; CallGetDeprecatedApmIndices apmIndices], Rejected err)
  | Rejected err1, Rejected err2 =>
      ([fetchCall; CallGetDeprecatedApmIndices apmIndices],
       Rejected match race with LeftFirst => err1 | RightFirst => err2 end)
  end.
Proof.
  unfold getUpgradeAssistantStatus, mbind, async_mbind, async_bind,
    Promise_all, invoke, settled, calls, mret, async_mret, async_ret.
  simpl.
  destruct (fetch dataClient) as [deprecations|err1],
    (getDeprecatedApmIndices dataClient apmIndices) as [apm|err2]; simpl;
    [| done | done | by destruct race].
  destruct (getCombinedIndexInfos isSystemIndex deprecations apm)
    as [|e merged] eqn:Hmerged; simpl; [done |].
  by destruct (esIndicesStateCheck _ _).
Qed.

(** A resolved run's readiness flag is computed from the two lists it
    returns. *)
Lemma run_readyForUpgrade dataClient (isCloudEnabled : bool)
    (apmIndices : list string) status :
  settled (run dataClient isCloudEnabled apmIndices) = Resolved status →
  status = statusOf (cluster status) (indices status).
Proof.
  rewrite run_unfold.
  destruct (fetch dataClient), (getDeprecatedApmIndices _ _); simpl;
    try done.
  case_decide; simpl; [by intros [= <-] |].
  destruct (esIndicesStateCheck _ _); simpl; [by intros [= <-] | done].
Qed.

(** A resolved run with every collaborator resolved. *)
Lemma run_resolved dataClient (isCloudEnabled : bool)
    (apmIndices : list string) deprecations apm indexStates :
  fetch dataClient = Resolved deprecations →
  getDeprecatedApmIndices dataClient apmIndices = Resolved apm →
  esIndicesStateCheck
    (callAsCurrentUser dataClient)
    (index <$> getCombinedIndexInfos isSystemIndex deprecations apm)
    = Resolved indexStates →
  settled (run dataClient isCloudEnabled apmIndices)
  = Resolved
      (statusOf
         (upcast <$> getClusterDeprecations deprecations isCloudEnabled)
         (enrichIndexStates indexStates
            (getCombinedIndexInfos isSystemIndex deprecations apm))).
Proof.
  intros Hfetch Hapm Hprobe. rewrite run_unfold, Hfetch, Hapm. simpl.
  case_decide as Hmerged; simpl; [by rewrite Hmerged | by rewrite Hprobe].
Qed.

Lemma filter_length_0 {A} (P : A → Prop) `{!∀ x, Decision (P x)}
    (l : list A) :
  length (filter P l) = 0 ↔ ∀ x, x ∈ l → ¬ P x.
Proof.
  induction l as [|a l IH].
  - split; [by intros _ x ?%elem_of_nil | done].
  - rewrite filter_cons. split.
    + intros Hlen x [->|Hx]%elem_of_cons.
      * by case_decide.
      * case_decide; [done |]. by apply IH.
    + intros Hall. rewrite decide_False.
      * apply IH. intros x Hx. apply Hall. by right.
      * apply Hall. by left.
Qed.

(** C1.  When [getUpgradeAssistantStatus] returns a status, its
    [readyForUpgrade] is true if and only if no entry of its cluster list
    followed by its indices list has level "critical"; it is true when both
    lists are empty. *)
Theorem readyForUpgrade_iff_no_critical dataClient (isCloudEnabled : bool)
    (apmIndices : list string) status :
  settled (run dataClient isCloudEnabled apmIndices) = Resolved status →
  (readyForUpgrade status = true
   ↔ ∀ e, e ∈ cluster status ++ indices status → level e ≠ "critical")
  ∧ (cluster status = [] → indices status = [] →
     readyForUpgrade status = true).
Proof.
  intros Hrun%run_readyForUpgrade.
  assert (readyForUpgrade status = true
          ↔ ∀ e, e ∈ cluster status ++ indices status → level e ≠ "critical")
    as Hiff.
  { rewrite Hrun at 1. simpl.
    by rewrite bool_decide_eq_true, filter_length_0. }
  split; [done |]. intros Hcl Hix. apply Hiff. rewrite Hcl, Hix.
  by intros e ?%elem_of_nil.
Qed.

(** C6, as amended.  Once both fetches have resolved: when the merged
    index list is non-empty the index-state probe is called exactly once,
    with the [index] of every entry of the merged list in list order, one
    name per entry; when the merged list is empty the probe is not
    called. *)
Theorem probe_called_once_with_entry_indices dataClient
    (isCloudEnabled : bool) (apmIndices : list string) deprecations apm :
  fetch dataClient = Resolved deprecations →
  getDeprecatedApmIndices dataClient apmIndices = Resolved apm →
  let merged := getCombinedIndexInfos isSystemIndex deprecations apm in
  let log := calls (run dataClient isCloudEnabled apmIndices) in
  (merged ≠ [] →
   probeCalls log = [index <$> merged]
   ∧ length (index <$> merged) = length merged)
  ∧ (merged = [] → probeCalls log = []).
Proof.
  intros Hfetch Hapm merged log. subst log.
  rewrite run_unfold, Hfetch, Hapm. simpl. fold merged.
  case_decide; simpl; split; try done.
  intros _. by rewrite length_fmap.
Qed.

(** C7.  With the fetches resolved and the probe reporting [indexStates],
    the run returns a status in which every entry of the indices list
    whose index is reported as "close" has [blockerForReindexing] equal to
    "index-closed", and every other entry has it undefined. *)
Theorem blocker_reflects_reported_state dataClient (isCloudEnabled : bool)
    (apmIndices : list string) deprecations apm indexStates :
  fetch dataClient = Resolved deprecations →
  getDeprecatedApmIndices dataClient apmIndices = Resolved apm →
  esIndicesStateCheck
    (callAsCurrentUser dataClient)
    (index <$> getCombinedIndexInfos isSystemIndex deprecations apm)
    = Resolved indexStates →
  ∃ status,
    settled (run dataClient isCloudEnabled apmIndices) = Resolved status
    ∧ ∀ e, e ∈ indices status →
        (indexStates !! to_property_key (index e) = Some "close" →
         blockerForReindexing e = Some "index-closed")
        ∧ (indexStates !! to_property_key (index e) ≠ Some "close" →
           blockerForReindexing e = None).
Proof.
  intros Hfetch Hapm Hprobe. eexists. split; [by eapply run_resolved |].
  simpl. unfold enrichIndexStates.
  intros e (x & -> & _)%list_elem_of_fmap. simpl.
  by case_decide.
Qed.

(** C8.  The state-enrichment pass keeps the length and the order of the
    indices list, and in every entry it keeps [level], [message], the
    context, [index], [reindex] and [needsDefaultFields] as they were. *)
Theorem enrichIndexStates_frame indexStates merged :
  length (enrichIndexStates indexStates merged) = length merged
  ∧ Forall2 (λ before after : EnrichedDeprecationInfo,
        level after = level before
        ∧ message after = message before
        ∧ context after = context before
        ∧ index after = index before
        ∧ reindex after = reindex before
        ∧ needsDefaultFields after = needsDefaultFields before)
      merged (enrichIndexStates indexStates merged).
Proof.
  unfold enrichIndexStates. split; [apply length_fmap |].
  apply Forall2_fmap_r, Forall_Forall2_diag, Forall_forall.
  by intros e _.
Qed.

(** C9.  A rejection of the deprecation fetch, of the apm lookup or of the
    index-state probe is the rejection of [getUpgradeAssistantStatus], with
    the same reason; when both fetches reject, the reason is that of the
    one rejecting first.  No status is returned then, and no collaborator
    is called a second time: the log is the two fetches, followed by at
    most one probe call. *)
Theorem collaborator_failure_propagates dataClient (isCloudEnabled : bool)
    (apmIndices : list string) :
  let result := run dataClient isCloudEnabled apmIndices in
  (∀ err apm,
     fetch dataClient = Rejected err →
     getDeprecatedApmIndices dataClient apmIndices = Resolved apm →
     settled result = Rejected err)
  ∧ (∀ deprecations err,
       fetch dataClient = Resolved deprecations →
       getDeprecatedApmIndices dataClient apmIndices = Rejected err →
       settled result = Rejected err)
  ∧ (∀ err1 err2,
       fetch dataClient = Rejected err1 →
       getDeprecatedApmIndices dataClient apmIndices = Rejected err2 →
       settled result
       = Rejected match race with LeftFirst => err1 | RightFirst => err2 end)
  ∧ (∀ deprecations apm err,
       fetch dataClient = Resolved deprecations →
       getDeprecatedApmIndices dataClient apmIndices = Resolved apm →
       getCombinedIndexInfos isSystemIndex deprecations apm ≠ [] →
       esIndicesStateCheck
         (callAsCurrentUser dataClient)
         (index <$> getCombinedIndexInfos isSystemIndex deprecations apm)
         = Rejected err →
       settled result = Rejected err)
  ∧ (calls result = [fetchCall; CallGetDeprecatedApmIndices apmIndices]
     ∨ ∃ indexNames,
         calls result = [fetchCall; CallGetDeprecatedApmIndices apmIndices;
                         CallEsIndicesStateCheck indexNames]).
Proof.
  intros result. subst result. rewrite run_unfold. split_and!.
  - by intros err apm -> ->.
  - by intros deprecations err -> ->.
  - by intros err1 err2 -> ->.
  - intros deprecations apm err -> -> Hmerged Hprobe. simpl.
    rewrite decide_False by done. simpl. by rewrite Hprobe.
  - destruct (fetch dataClient), (getDeprecatedApmIndices _ _); simpl;
      try by left.
    case_decide; simpl; [by left | right; by eexists].
Qed.

(** C10.  With the fetches resolved and the probe reporting
    [indexStates], the pass assigns [blockerForReindexing] in every entry
    of the merged list, the apm warnings at its end included: the value
    after the pass is decided by the reported state of the entry's index
    alone, whatever the entry carried before, and it is undefined when the
    report has no entry for that index. *)
Theorem blocker_assigned_on_every_entry dataClient (isCloudEnabled : bool)
    (apmIndices : list string) deprecations apm indexStates :
  fetch dataClient = Resolved deprecations →
  getDeprecatedApmIndices dataClient apmIndices = Resolved apm →
  esIndicesStateCheck
    (callAsCurrentUser dataClient)
    (index <$> getCombinedIndexInfos isSystemIndex deprecations apm)
    = Resolved indexStates →
  ∃ status,
    settled (run dataClient isCloudEnabled apmIndices) = Resolved status
    ∧ Forall2 (λ before after,
          blockerForReindexing after
          = (if decide (indexStates !! to_property_key (index before)
                        = Some "close")
             then Some "index-closed" else None)
          ∧ (indexStates !! to_property_key (index before) = None →
             blockerForReindexing after = None))
        (generalIndexInfos isSystemIndex deprecations apm ++ apm)
        (indices status).
Proof.
  intros Hfetch Hapm Hprobe. eexists. split; [by eapply run_resolved |].
  simpl. unfold enrichIndexStates, getCombinedIndexInfos.
  apply Forall2_fmap_r, Forall_Forall2_diag, Forall_forall.
  intros e _. simpl. split; [done |]. intros ->. by rewrite decide_False.
Qed.

End Orchestrator.

(** ** Further properties of the filter and of the merger *)

Section FilterFacts.

Context {Ctx : Type}.
Implicit Types (deprecations : @DeprecationAPIResponse Ctx).
Implicit Types (w : @DeprecationInfo Ctx).

Lemma filter_id_iff {A} (P : A → Prop) `{!∀ x, Decision (P x)} (l : list A) :
  filter P l = l ↔ ∀ x, x ∈ l → P x.
Proof.
  split.
  - intros Hid x Hx. destruct (decide (P x)) as [|Hnot]; [done |].
    pose proof (length_filter_lt P l x Hx Hnot) as Hlt.
    rewrite Hid in Hlt. lia.
  - induction l as [|a l IH]; [done |]. intros Hall.
    rewrite filter_cons, decide_True by (apply Hall; by left).
    f_equal. apply IH. intros x Hx. apply Hall. by right.
Qed.

(** X1.  The cloud flag changes the cluster list exactly when the response
    carries a warning with the security-realm message. *)
Theorem cloud_flag_irrelevant_iff deprecations :
  getClusterDeprecations deprecations true
  = getClusterDeprecations deprecations false
  ↔ ∀ w, w ∈ cluster_settings deprecations ++ ml_settings deprecations
               ++ node_settings deprecations →
         message w ≠ "Security realm settings structure changed".
Proof.
  unfold getClusterDeprecations. simpl. rewrite <- (assoc_L (++)).
  apply filter_id_iff.
Qed.

End FilterFacts.

Section MergerFacts.

Context {Ctx : Type}.
Variable isSystemIndex : string → bool.
Implicit Types (deprecations : @DeprecationAPIResponse Ctx).
Implicit Types (apm : list (@EnrichedDeprecationInfo Ctx)).
Implicit Types (e : @EnrichedDeprecationInfo Ctx) (w : @DeprecationInfo Ctx).

(** A key that reads back a value is one of the object's keys. *)
Lemma js_get_Some_key {V} (o : js_object V) (k : string) (v : V) :
  js_get o k = Some v → k ∈ Object_keys o.
Proof.
  unfold Object_keys. induction o as [|[k' v'] o IH]; simpl; [done |].
  case_decide as Hk.
  - intros _. rewrite Hk. by left.
  - intros Hget. right. by apply IH.
Qed.

(** X2.  Every entry of the general portion names its index; the index is a key
    of [index_settings], not a system index and not named by any apm
    warning; the entry carries no blocker yet. *)
Theorem general_portion_entry deprecations apm e :
  e ∈ generalIndexInfos isSystemIndex deprecations apm →
  ∃ indexName,
    index e = Some indexName
    ∧ indexName ∈ Object_keys (index_settings deprecations)
    ∧ isSystemIndex indexName = false
    ∧ (Some indexName ∉ index <$> apm)
    ∧ blockerForReindexing e = None.
Proof.
  intros (k & ds & w & Hk & Hapm & Hsys & _ & _ & ->)%elem_of_generalIndexInfos.
  by exists k.
Qed.

(** X3.  No warning is lost: a warning listed under an index that is neither a
    system index nor named by an apm warning is in the merged list, with
    its own fields and that index. *)
Theorem plain_index_warning_kept deprecations apm (indexName : string)
    (ds : list (@DeprecationInfo Ctx)) w :
  js_get (index_settings deprecations) indexName = Some ds →
  w ∈ ds →
  isSystemIndex indexName = false →
  Some indexName ∉ index <$> apm →
  ∃ e, e ∈ getCombinedIndexInfos isSystemIndex deprecations apm
       ∧ base e = w ∧ index e = Some indexName.
Proof.
  intros Hget Hw Hsys Hapm. exists (enrich_spec indexName w).
  split; [| done]. unfold getCombinedIndexInfos.
  apply elem_of_app. left. apply elem_of_generalIndexInfos.
  exists indexName, ds, w. split_and!; try done.
  by eapply js_get_Some_key.
Qed.

(** X4.  When every key of [index_settings] is a system index or is named by an
    apm warning (in particular when there is no key), the merged list is
    the apm list. *)
Theorem merged_is_apm_list deprecations apm :
  (∀ indexName : string,
     indexName ∈ Object_keys (index_settings deprecations) →
     isSystemIndex indexName = true ∨ Some indexName ∈ index <$> apm) →
  getCombinedIndexInfos isSystemIndex deprecations apm = apm.
Proof.
  intros Hkeys. unfold getCombinedIndexInfos.
  rewrite (elem_of_nil_inv (generalIndexInfos isSystemIndex deprecations apm));
    [done |].
  intros e (k & _ & _ & Hk & Hapm & Hsys & _)%elem_of_generalIndexInfos.
  destruct (Hkeys k Hk) as [Hsys' | Hapm']; [congruence | done].
Qed.

End MergerFacts.

(** ** Further properties of the orchestrator *)

Section OrchestratorFacts.

Context {Ctx Err : Type}.
Variable isSystemIndex : string → bool.
Variable getDeprecatedApmIndices :
  @IScopedClusterClient Ctx Err → list string →
  @outcome Err (list (@EnrichedDeprecationInfo Ctx)).
Variable esIndicesStateCheck :
  (string → RequestParams → @outcome Err (@DeprecationAPIResponse Ctx)) →
  list (option string) → @outcome Err IndexStates.
Variable race : Race.

Implicit Types (dataClient : @IScopedClusterClient Ctx Err).
Implicit Types (deprecations : @DeprecationAPIResponse Ctx).
Implicit Types (apm merged : list (@EnrichedDeprecationInfo Ctx)).
Implicit Types (e : @EnrichedDeprecationInfo Ctx) (err : Err).
Implicit Types (w : @DeprecationInfo Ctx).
Implicit Types (indexStates : IndexStates).
Implicit Types (status : @UpgradeAssistantStatus Ctx).

Local Abbreviation run :=
  (getUpgradeAssistantStatus isSystemIndex getDeprecatedApmIndices
                             esIndicesStateCheck race).
Local Abbreviation request :=
  {| path := "/_migration/deprecations"; method := "GET" |}.
Local Abbreviation fetch dataClient :=
  (callAsCurrentUser dataClient "transport.request" request).
Local Abbreviation combined deprecations apm :=
  (getCombinedIndexInfos isSystemIndex deprecations apm).
Local Abbreviation probe dataClient deprecations apm :=
  (esIndicesStateCheck (callAsCurrentUser dataClient)
                       (index <$> combined deprecations apm)).

(** What a resolved run was computed from: both fetches resolved, the
    cluster list is the filter's output, and the indices list is the merged
    list, enriched with the probe's report when it is not empty. *)
Lemma run_resolved_inv dataClient (isCloudEnabled : bool)
    (apmIndices : list string) status :
  settled (run dataClient isCloudEnabled apmIndices) = Resolved status →
  ∃ deprecations apm,
    fetch dataClient = Resolved deprecations
    ∧ getDeprecatedApmIndices dataClient apmIndices = Resolved apm
    ∧ cluster status
      = upcast <$> getClusterDeprecations deprecations isCloudEnabled
    ∧ (combined deprecations apm = [] ∧ indices status = []
       ∨ combined deprecations apm ≠ []
         ∧ ∃ indexStates,
             probe dataClient deprecations apm = Resolved indexStates
             ∧ indices status
               = enrichIndexStates indexStates (combined deprecations apm)).
Proof.
  rewrite run_unfold.
  destruct (fetch dataClient) as [deprecations|],
    (getDeprecatedApmIndices _ _) as [apm|]; simpl; try done.
  case_decide as Hmerged; simpl.
  - intros [= <-]. exists deprecations, apm. simpl.
    split_and!; try done. left. by rewrite Hmerged.
  - destruct (esIndicesStateCheck _ _) as [indexStates|] eqn:Hprobe;
      simpl; [| done].
    intros [= <-]. exists deprecations, apm. simpl.
    split_and!; try done. right. split; [done |]. by exists indexStates.
Qed.

(** The pass leaves the levels alone. *)
Lemma enrichIndexStates_levels indexStates merged :
  (∀ e, e ∈ enrichIndexStates indexStates merged → level e ≠ "critical")
  ↔ (∀ e, e ∈ merged → level e ≠ "critical").
Proof.
  unfold enrichIndexStates. split.
  - intros Hall e He. apply (Hall (setBlocker indexStates e)).
    apply list_elem_of_fmap. by exists e.
  - intros Hall e' (e & -> & He)%list_elem_of_fmap. exact (Hall e He).
Qed.

(** Readiness in terms of what the run was computed from. *)
Lemma run_ready_iff dataClient (isCloudEnabled : bool)
    (apmIndices : list string) status deprecations apm :
  settled (run dataClient isCloudEnabled apmIndices) = Resolved status →
  fetch dataClient = Resolved deprecations →
  getDeprecatedApmIndices dataClient apmIndices = Resolved apm →
  readyForUpgrade status = true
  ↔ (∀ w, w ∈ getClusterDeprecations deprecations isCloudEnabled →
          level w ≠ "critical")
    ∧ (∀ e, e ∈ combined deprecations apm → level e ≠ "critical").
Proof.
  intros Hrun Hfetch Hapm.
  pose proof (run_readyForUpgrade _ _ _ _ _ _ _ _ Hrun) as Hstatus.
  destruct (run_resolved_inv _ _ _ _ Hrun)
    as (d & a & Hfetch' & Hapm' & Hcl & Hix).
  rewrite Hfetch in Hfetch'. rewrite Hapm in Hapm'.
  injection Hfetch' as <-. injection Hapm' as <-.
  rewrite Hstatus at 1. simpl.
  rewrite bool_decide_eq_true, filter_length_0, Hcl.
  assert ((∀ e, e ∈ indices status → level e ≠ "critical")
          ↔ ∀ e, e ∈ combined deprecations apm → level e ≠ "critical")
    as Hlevels.
  { destruct Hix as [[-> ->] | (_ & indexStates & _ & ->)]; [done |].
    apply enrichIndexStates_levels. }
  rewrite <- Hlevels. split.
  - intros Hall. split.
    + intros w Hw. apply (Hall (upcast w)), elem_of_app. left.
      apply list_elem_of_fmap. by exists w.
    + intros e He. apply Hall, elem_of_app. by right.
  - intros [Hcluster Hindices] e [(w & -> & Hw)%list_elem_of_fmap | He]%elem_of_app.
    + by apply Hcluster.
    + by apply Hindices.
Qed.

(** A warning of the three cluster-scope lists survives the filter unless
    it is the security-realm warning on cloud. *)
Lemma elem_of_getClusterDeprecations deprecations (isCloudEnabled : bool) w :
  w ∈ getClusterDeprecations deprecations isCloudEnabled
  ↔ w ∈ cluster_settings deprecations ++ ml_settings deprecations
          ++ node_settings deprecations
    ∧ (isCloudEnabled = false
       ∨ message w ≠ "Security realm settings structure changed").
Proof.
  unfold getClusterDeprecations. simpl. rewrite <- (assoc_L (++)).
  destruct isCloudEnabled.
  - rewrite list_elem_of_filter. split.
    + intros [Hmsg Hw]. split; [done | by right].
    + intros [Hw [? | Hmsg]]; [done | by split].
  - split; [intros Hw; split; [done | by left] | by intros [Hw _]].
Qed.



(** X7.  The probe is called only after both fetches resolved, on a non-empty
    merged list, and then once, with the indices of that list. *)
Theorem probe_call_implies_fetched dataClient (isCloudEnabled : bool)
    (apmIndices : list string) :
  probeCalls (calls (run dataClient isCloudEnabled apmIndices)) ≠ [] →
  ∃ deprecations apm,
    fetch dataClient = Resolved deprecations
    ∧ getDeprecatedApmIndices dataClient apmIndices = Resolved apm
    ∧ combined deprecations apm ≠ []
    ∧ probeCalls (calls (run dataClient isCloudEnabled apmIndices))
      = [index <$> combined deprecations apm].
Proof.
  rewrite run_unfold.
  destruct (fetch dataClient) as [d|err1],
    (getDeprecatedApmIndices _ _) as [a|err2]; simpl; try done.
  case_decide as Hmerged; simpl; [done |].
  intros _. by exists d, a.
Qed.

(** X8.  The probe is asked about exactly the indices the status returns. *)
Theorem probe_asked_about_returned_indices dataClient (isCloudEnabled : bool)
    (apmIndices : list string) status :
  settled (run dataClient isCloudEnabled apmIndices) = Resolved status →
  probeCalls (calls (run dataClient isCloudEnabled apmIndices))
  = if decide (indices status = []) then [] else [index <$> indices status].
Proof.
  rewrite run_unfold.
  destruct (fetch dataClient) as [d|err1],
    (getDeprecatedApmIndices _ _) as [a|err2]; simpl; try done.
  case_decide as Hmerged; simpl.
  - intros [= <-]. simpl. by rewrite decide_True.
  - destruct (esIndicesStateCheck _ _) as [indexStates|]; simpl; [| done].
    intros [= <-]. simpl. unfold enrichIndexStates.
    rewrite decide_False by (intros ?%fmap_nil_inv; done).
    f_equal. rewrite <- list_fmap_compose. by apply list_fmap_ext.
Qed.

(** X9.  Readiness does not depend on what the probe reports: it is decided by
    the levels in the filtered cluster list and in the merged index list
    as they were before the pass. *)
Theorem readiness_ignores_index_states dataClient (isCloudEnabled : bool)
    (apmIndices : list string) status :
  settled (run dataClient isCloudEnabled apmIndices) = Resolved status →
  ∃ deprecations apm,
    fetch dataClient = Resolved deprecations
    ∧ getDeprecatedApmIndices dataClient apmIndices = Resolved apm
    ∧ (readyForUpgrade status = true
       ↔ (∀ w, w ∈ getClusterDeprecations deprecations isCloudEnabled →
               level w ≠ "critical")
         ∧ (∀ e, e ∈ combined deprecations apm → level e ≠ "critical")).
Proof.
  intros Hrun.
  destruct (run_resolved_inv _ _ _ _ Hrun) as (d & a & Hfetch & Hapm & _).
  exists d, a. split_and!; try done.
  exact (run_ready_iff _ _ _ _ _ _ Hrun Hfetch Hapm).
Qed.

(** X10.  Turning the cloud flag on can only help: with the same collaborators
    the run still resolves, returns the same indices list and a sublist of
    the cluster list, and is ready whenever the run without the flag is. *)
Theorem cloud_flag_keeps_readiness dataClient (apmIndices : list string)
    status :
  settled (run dataClient false apmIndices) = Resolved status →
  ∃ status',
    settled (run dataClient true apmIndices) = Resolved status'
    ∧ indices status' = indices status
    ∧ cluster status' `sublist_of` cluster status
    ∧ (readyForUpgrade status = true → readyForUpgrade status' = true).
Proof.
  intros Hrun.
  destruct (run_resolved_inv _ _ _ _ Hrun)
    as (d & a & Hfetch & Hapm & Hcl & Hix).
  assert (∃ status',
            settled (run dataClient true apmIndices) = Resolved status'
            ∧ indices status' = indices status
            ∧ cluster status' = upcast <$> getClusterDeprecations d true)
    as (status' & Hrun' & Hix' & Hcl').
  { rewrite run_unfold, Hfetch, Hapm. simpl.
    destruct Hix as [[Hempty ->] | (Hne & indexStates & Hprobe & ->)].
    - rewrite decide_True by done. simpl. eexists. split; [done |].
      simpl. by rewrite Hempty.
    - rewrite decide_False by done. simpl. rewrite Hprobe.
      by eexists. }
  exists status'. split_and!; try done.
  - rewrite Hcl, Hcl'. apply fmap_sublist. unfold getClusterDeprecations.
    apply sublist_filter.
  - rewrite (run_ready_iff _ _ _ _ _ _ Hrun Hfetch Hapm).
    rewrite (run_ready_iff _ _ _ _ _ _ Hrun' Hfetch Hapm).
    intros [Hcluster Hindices]. split; [| done].
    intros w [Hw _]%elem_of_getClusterDeprecations. apply Hcluster.
    apply elem_of_getClusterDeprecations. split; [done | by left].
Qed.

(** X11.  A critical warning in one of the three cluster-scope lists makes the
    status not ready, whatever the indices, unless it is the security-realm
    warning on cloud. *)
Theorem critical_cluster_warning_blocks dataClient (isCloudEnabled : bool)
    (apmIndices : list string) status deprecations w :
  settled (run dataClient isCloudEnabled apmIndices) = Resolved status →
  fetch dataClient = Resolved deprecations →
  w ∈ cluster_settings deprecations ++ ml_settings deprecations
        ++ node_settings deprecations →
  level w = "critical" →
  isCloudEnabled = false
  ∨ message w ≠ "Security realm settings structure changed" →
  readyForUpgrade status = false.
Proof.
  intros Hrun Hfetch Hw Hlevel Hkept.
  destruct (run_resolved_inv _ _ _ _ Hrun) as (d & a & Hfetch' & Hapm & _).
  rewrite Hfetch in Hfetch'. injection Hfetch' as <-.
  apply not_true_is_false.
  rewrite (run_ready_iff _ _ _ _ _ _ Hrun Hfetch Hapm).
  intros [Hcluster _]. apply (Hcluster w); [| done].
  by apply elem_of_getClusterDeprecations.
Qed.

(** X12.  A critical warning listed under an index that is neither a system
    index nor named by an apm warning makes the status not ready. *)
Theorem critical_index_warning_blocks dataClient (isCloudEnabled : bool)
    (apmIndices : list string) status deprecations apm
    (indexName : string) (ds : list (@DeprecationInfo Ctx)) w :
  settled (run dataClient isCloudEnabled apmIndices) = Resolved status →
  fetch dataClient = Resolved deprecations →
  getDeprecatedApmIndices dataClient apmIndices = Resolved apm →
  js_get (index_settings deprecations) indexName = Some ds →
  w ∈ ds →
  level w = "critical" →
  isSystemIndex indexName = false →
  Some indexName ∉ index <$> apm →
  readyForUpgrade status = false.
Proof.
  intros Hrun Hfetch Hapm Hget Hw Hlevel Hsys Hplain.
  apply not_true_is_false.
  rewrite (run_ready_iff _ _ _ _ _ _ Hrun Hfetch Hapm).
  intros [_ Hindices]. apply (Hindices (enrich_spec indexName w)); [| done].
  unfold getCombinedIndexInfos. apply elem_of_app. left.
  apply elem_of_generalIndexInfos. exists indexName, ds, w.
  split_and!; try done. by eapply js_get_Some_key.
Qed.

(** X13.  A critical warning from the apm lookup makes the status not ready,
    system index or not. *)
Theorem critical_apm_warning_blocks dataClient (isCloudEnabled : bool)
    (apmIndices : list string) status apm e :
  settled (run dataClient isCloudEnabled apmIndices) = Resolved status →
  getDeprecatedApmIndices dataClient apmIndices = Resolved apm →
  e ∈ apm →
  level e = "critical" →
  readyForUpgrade status = false.
Proof.
  intros Hrun Hapm He Hlevel.
  destruct (run_resolved_inv _ _ _ _ Hrun) as (d & a & Hfetch & Hapm' & _).
  rewrite Hapm in Hapm'. injection Hapm' as <-.
  apply not_true_is_false.
  rewrite (run_ready_iff _ _ _ _ _ _ Hrun Hfetch Hapm).
  intros [_ Hindices]. apply (Hindices e); [| done].
  unfold getCombinedIndexInfos. apply elem_of_app. by right.
Qed.

(** X14.  Running the pass again with another report replaces the outcome of the
    first pass: only the last report counts. *)
Theorem enrichIndexStates_last_report_wins indexStates
    (indexStates' : IndexStates) merged :
  enrichIndexStates indexStates' (enrichIndexStates indexStates merged)
  = enrichIndexStates indexStates' merged.
Proof.
  unfold enrichIndexStates. rewrite <- list_fmap_compose.
  by apply list_fmap_ext.
Qed.

End OrchestratorFacts.

(** ** The properties on the sample deployments *)

Lemma readyForUpgrade_iff_no_critical_witness :
  ∃ status,
    settled run_apm = Resolved status
    ∧ readyForUpgrade status = false
    ∧ (readyForUpgrade status = true
       ↔ ∀ e : @EnrichedDeprecationInfo unit, e ∈ cluster status ++ indices status → level e ≠ "critical")
    ∧ (cluster status = [] → indices status = [] →
       readyForUpgrade status = true).
Proof.
  eexists. split; [reflexivity |]. split; [reflexivity |].
  apply (readyForUpgrade_iff_no_critical
           dotIndex (apmOf [apm_warning]) (probeOf {[ "idx1" := "close" ]})
           LeftFirst (clientOf (Resolved response_apm)) true ["apm-*"]).
  reflexivity.
Defined.

Lemma apm_index_not_in_general_portion_witness :
  "apm-1" ∈ Object_keys (index_settings response_apm)
  ∧ Some "apm-1" ∈ index <$> [apm_warning]
  ∧ ∀ e : @EnrichedDeprecationInfo unit, e ∈ generalIndexInfos dotIndex response_apm [apm_warning] →
         index e ≠ Some "apm-1".
Proof.
  assert ("apm-1" ∈ Object_keys (index_settings response_apm)) as Hkey
    by (vm_compute; constructor).
  assert (Some "apm-1" ∈ index <$> [apm_warning]) as Hapm
    by (vm_compute; constructor).
  split; [exact Hkey |]. split; [exact Hapm |].
  apply (apm_index_not_in_general_portion
           dotIndex response_apm [apm_warning] "apm-1" Hkey Hapm).
Defined.

(** On the apm deployment the merged list ends with the apm warning, which
    is flagged for reindexing although its message does not contain "Index
    created before". *)
Lemma merged_entry_flags_counterexample :
  ¬ ∀ e : @EnrichedDeprecationInfo unit, e ∈ getCombinedIndexInfos dotIndex response_apm [apm_warning] →
      (reindex e = Some true
       ↔ contains_substring "Index created before" (message e))
      ∧ (needsDefaultFields e = Some true
         ↔ contains_substring
             "Number of fields exceeds automatic field expansion limit"
             (message e)).
Proof.
  intros Hall. destruct (Hall apm_warning) as [[Hreindex _] _].
  - vm_compute. apply list_elem_of_further, list_elem_of_here.
  - specialize (Hreindex eq_refl). apply regex_test_spec in Hreindex.
    vm_compute in Hreindex. discriminate Hreindex.
Qed.

(** With two warnings on [idx1] the probe is called once and is handed
    [idx1] twice. *)
Lemma probe_receives_duplicates_counterexample :
  getCombinedIndexInfos dotIndex response_two [] ≠ []
  ∧ probeCalls (calls run_two) = [[Some "idx1"; Some "idx1"]]
  ∧ ¬ ∃ indexNames,
        probeCalls (calls run_two) = [indexNames] ∧ NoDup indexNames.
Proof.
  split; [by vm_compute |]. split; [reflexivity |].
  intros (indexNames & Hcalls & Hnodup).
  assert (indexNames = [Some "idx1"; Some "idx1"]) as ->.
  { vm_compute in Hcalls. by injection Hcalls as <-. }
  apply NoDup_cons in Hnodup as [Hin _]. apply Hin. constructor.
Qed.

Lemma probe_called_once_with_entry_indices_witness :
  callAsCurrentUser (clientOf (Resolved response_two)) "transport.request"
    {| path := "/_migration/deprecations"; method := "GET" |}
    = Resolved response_two
  ∧ apmOf [] (clientOf (Resolved response_two)) [] = Resolved []
  ∧ probeCalls (calls run_two)
    = [index <$> getCombinedIndexInfos dotIndex response_two []].
Proof.
  split; [reflexivity |]. split; [reflexivity |].
  apply (probe_called_once_with_entry_indices
           dotIndex (apmOf []) (probeOf ∅) LeftFirst
           (clientOf (Resolved response_two)) false [] response_two []
           eq_refl eq_refl).
  by vm_compute.
Defined.

Lemma blocker_reflects_reported_state_witness :
  ∃ status,
    settled run_apm = Resolved status
    ∧ (blockerForReindexing <$> indices status) = [Some "index-closed"; None]
    ∧ ∀ e : @EnrichedDeprecationInfo unit, e ∈ indices status →
        (({[ "idx1" := "close" ]} : IndexStates)
           !! to_property_key (index e) = Some "close" →
         blockerForReindexing e = Some "index-closed")
        ∧ (({[ "idx1" := "close" ]} : IndexStates)
             !! to_property_key (index e) ≠ Some "close" →
           blockerForReindexing e = None).
Proof.
  destruct (blocker_reflects_reported_state
              dotIndex (apmOf [apm_warning]) (probeOf {[ "idx1" := "close" ]})
              LeftFirst (clientOf (Resolved response_apm)) true ["apm-*"]
              response_apm [apm_warning] {[ "idx1" := "close" ]}
              eq_refl eq_refl eq_refl) as (status & Hrun & Hblocker).
  exists status. split; [exact Hrun |]. split; [| exact Hblocker].
  change (settled run_apm = Resolved status) in Hrun.
  vm_compute in Hrun. by injection Hrun as <-.
Defined.

Lemma collaborator_failure_propagates_witness :
  settled run_probe_fails = Rejected "probe failed"
  ∧ settled run_fetches_fail = Rejected "apm failed".
Proof.
  split.
  - destruct (collaborator_failure_propagates
                dotIndex (apmOf []) (probeFails "probe failed") LeftFirst
                (clientOf (Resolved response_idx1)) false [])
      as (_ & _ & _ & Hprobe & _).
    apply (Hprobe response_idx1 [] "probe failed");
      [reflexivity | reflexivity | by vm_compute | reflexivity].
  - destruct (collaborator_failure_propagates
                dotIndex (apmFails "apm failed") (probeOf ∅) RightFirst
                (clientOf (Rejected "fetch failed")) false [])
      as (_ & _ & Hboth & _).
    apply (Hboth "fetch failed" "apm failed"); reflexivity.
Defined.

Lemma blocker_assigned_on_every_entry_witness :
  blockerForReindexing apm_warning = Some "index-closed"
  ∧ ∃ status,
      settled run_apm = Resolved status
      ∧ Forall2 (λ before after : @EnrichedDeprecationInfo unit,
            blockerForReindexing after
            = (if decide (({[ "idx1" := "close" ]} : IndexStates)
                            !! to_property_key (index before) = Some "close")
               then Some "index-closed" else None)
            ∧ (({[ "idx1" := "close" ]} : IndexStates)
                 !! to_property_key (index before) = None →
               blockerForReindexing after = None))
          (generalIndexInfos dotIndex response_apm [apm_warning]
             ++ [apm_warning])
          (indices status).
Proof.
  split; [reflexivity |].
  apply (blocker_assigned_on_every_entry
           dotIndex (apmOf [apm_warning]) (probeOf {[ "idx1" := "close" ]})
           LeftFirst (clientOf (Resolved response_apm)) true ["apm-*"]
           response_apm [apm_warning] {[ "idx1" := "close" ]}
           eq_refl eq_refl eq_refl).
Defined.

(** ** The further properties on the sample deployments *)

Lemma general_portion_entry_witness :
  ∃ e : @EnrichedDeprecationInfo unit,
    e ∈ generalIndexInfos dotIndex response_apm [apm_warning]
    ∧ ∃ indexName,
        index e = Some indexName
        ∧ indexName ∈ Object_keys (index_settings response_apm)
        ∧ dotIndex indexName = false
        ∧ (Some indexName ∉ index <$> [apm_warning])
        ∧ blockerForReindexing e = None.
Proof.
  assert (enrich_spec "idx1" (warn "warning" "Index created before 7.0")
          ∈ generalIndexInfos dotIndex response_apm [apm_warning]) as He
    by (vm_compute; apply list_elem_of_here).
  eexists. split; [exact He |].
  exact (general_portion_entry dotIndex response_apm [apm_warning] _ He).
Defined.

Lemma plain_index_warning_kept_witness :
  ∃ e : @EnrichedDeprecationInfo unit,
    e ∈ getCombinedIndexInfos dotIndex response_apm [apm_warning]
    ∧ base e = warn "warning" "Index created before 7.0"
    ∧ index e = Some "idx1".
Proof.
  apply (plain_index_warning_kept dotIndex response_apm [apm_warning] "idx1"
           [warn "warning" "Index created before 7.0"]).
  - reflexivity.
  - apply list_elem_of_here.
  - reflexivity.
  - vm_compute. intros Hin. inversion Hin as [| ? ? ? Hnil]; subst.
    inversion Hnil.
Defined.

Lemma merged_is_apm_list_witness :
  getCombinedIndexInfos dotIndex response_internal [apm_warning]
  = [apm_warning].
Proof.
  apply (merged_is_apm_list dotIndex response_internal [apm_warning]).
  intros indexName Hkey. vm_compute in Hkey.
  inversion Hkey as [| ? ? ? Hkey']; subst.
  - right. vm_compute. apply list_elem_of_here.
  - inversion Hkey' as [| ? ? ? Hnil]; subst; [by left | inversion Hnil].
Defined.


Lemma probe_call_implies_fetched_witness :
  probeCalls (calls run_two) ≠ []
  ∧ ∃ deprecations apm,
      callAsCurrentUser (clientOf (Resolved response_two)) "transport.request"
        {| path := "/_migration/deprecations"; method := "GET" |}
      = Resolved deprecations
      ∧ apmOf [] (clientOf (Resolved response_two)) [] = Resolved apm
      ∧ getCombinedIndexInfos dotIndex deprecations apm ≠ []
      ∧ probeCalls (calls run_two)
        = [index <$> getCombinedIndexInfos dotIndex deprecations apm].
Proof.
  assert (probeCalls (calls run_two) ≠ []) as Hcalled by (by vm_compute).
  split; [exact Hcalled |].
  exact (probe_call_implies_fetched
           dotIndex (apmOf []) (probeOf ∅) LeftFirst
           (clientOf (Resolved response_two)) false [] Hcalled).
Defined.

Lemma probe_asked_about_returned_indices_witness :
  ∃ status,
    settled run_apm = Resolved status
    ∧ probeCalls (calls run_apm) = [[Some "idx1"; Some "apm-1"]]
    ∧ probeCalls (calls run_apm)
      = if decide (indices status = []) then []
        else [index <$> indices status].
Proof.
  eexists. split; [reflexivity |]. split; [reflexivity |].
  apply (probe_asked_about_returned_indices
           dotIndex (apmOf [apm_warning]) (probeOf {[ "idx1" := "close" ]})
           LeftFirst (clientOf (Resolved response_apm)) true ["apm-*"]).
  reflexivity.
Defined.

Lemma readiness_ignores_index_states_witness :
  ∃ status,
    settled run_idx1_closed = Resolved status
    ∧ (blockerForReindexing <$> indices status) = [Some "index-closed"]
    ∧ readyForUpgrade status = true
    ∧ ∃ deprecations apm,
        callAsCurrentUser (clientOf (Resolved response_idx1))
          "transport.request"
          {| path := "/_migration/deprecations"; method := "GET" |}
        = Resolved deprecations
        ∧ apmOf [] (clientOf (Resolved response_idx1)) [] = Resolved apm
        ∧ (readyForUpgrade status = true
           ↔ (∀ w : @DeprecationInfo unit,
                w ∈ getClusterDeprecations deprecations false →
                level w ≠ "critical")
             ∧ (∀ e : @EnrichedDeprecationInfo unit,
                  e ∈ getCombinedIndexInfos dotIndex deprecations apm →
                  level e ≠ "critical")).
Proof.
  eexists. split; [reflexivity |]. split; [reflexivity |].
  split; [reflexivity |].
  apply (readiness_ignores_index_states
           dotIndex (apmOf []) (probeOf {[ "idx1" := "close" ]}) LeftFirst
           (clientOf (Resolved response_idx1)) false []).
  reflexivity.
Defined.

Lemma cloud_flag_keeps_readiness_witness :
  ∃ status,
    settled run_idx1_closed = Resolved status
    ∧ readyForUpgrade status = true
    ∧ ∃ status',
        settled
          (getUpgradeAssistantStatus dotIndex (apmOf [])
             (probeOf {[ "idx1" := "close" ]}) LeftFirst
             (clientOf (Resolved response_idx1)) true [])
        = Resolved status'
        ∧ indices status' = indices status
        ∧ cluster status' `sublist_of` cluster status
        ∧ (readyForUpgrade status = true → readyForUpgrade status' = true).
Proof.
  eexists. split; [reflexivity |]. split; [reflexivity |].
  apply (cloud_flag_keeps_readiness
           dotIndex (apmOf []) (probeOf {[ "idx1" := "close" ]}) LeftFirst
           (clientOf (Resolved response_idx1)) []).
  reflexivity.
Defined.

Lemma critical_cluster_warning_blocks_witness :
  ∃ status,
    settled run_apm = Resolved status ∧ readyForUpgrade status = false.
Proof.
  eexists. split; [reflexivity |].
  apply (critical_cluster_warning_blocks
           dotIndex (apmOf [apm_warning]) (probeOf {[ "idx1" := "close" ]})
           LeftFirst (clientOf (Resolved response_apm)) true ["apm-*"]
           _ response_apm (warn "critical" "Node setting removed")).
  - reflexivity.
  - reflexivity.
  - vm_compute. apply list_elem_of_further, list_elem_of_here.
  - reflexivity.
  - right. discriminate.
Defined.

Lemma critical_index_warning_blocks_witness :
  ∃ status,
    settled run_two = Resolved status ∧ readyForUpgrade status = false.
Proof.
  eexists. split; [reflexivity |].
  apply (critical_index_warning_blocks
           dotIndex (apmOf []) (probeOf ∅) LeftFirst
           (clientOf (Resolved response_two)) false []
           _ response_two [] "idx1"
           [warn "warning" "Index created before 7.0";
            warn "critical"
              "Number of fields exceeds automatic field expansion limit"]
           (warn "critical"
              "Number of fields exceeds automatic field expansion limit")).
  - reflexivity.
  - reflexivity.
  - reflexivity.
  - reflexivity.
  - apply list_elem_of_further, list_elem_of_here.
  - reflexivity.
  - reflexivity.
  - vm_compute. intros Hin. inversion Hin.
Defined.

Lemma critical_apm_warning_blocks_witness :
  ∃ status,
    settled run_apm_critical = Resolved status
    ∧ readyForUpgrade status = false.
Proof.
  eexists. split; [reflexivity |].
  apply (critical_apm_warning_blocks
           dotIndex (apmOf [apm_critical_warning]) (probeOf ∅) LeftFirst
           (clientOf (Resolved response_idx1)) false []
           _ [apm_critical_warning] apm_critical_warning).
  - reflexivity.
  - reflexivity.
  - apply list_elem_of_here.
  - reflexivity.
Defined.
